(** * A shallow embedding of edcs/datagrid (src/src/datagrid.js)

    The datagrid keeps one mutable request-parameter object
    ([that.requestParams]), mutates it from three event handlers
    (sort-request, pagination-request, search-request), issues a GET with it
    after every change, and renders rows, pagination and a browser-history
    entry when the response arrives (data-ready).

    The component is modelled as explicit state passing: a record [grid]
    holds the fields of the [Datagrid] object and the parts of the DOM and of
    the collaborators that the handlers read or write, and every method is a
    computation in a small state monad whose failure case keeps the state
    reached so far (a JavaScript exception does not undo the assignments made
    before it was thrown). *)

From Stdlib Require Import String Ascii ZArith List Bool Lia DecimalString.
From Stdlib Require DecimalPos.
Import ListNotations.

Local Open Scope string_scope.

(** ** JavaScript values *)

(** Numbers produced by [parseInt], [Math.round] and the defaults.  Values
    are exact integers: the numbers involved (page numbers, row counts, row
    totals) are taken to be small enough for doubles to hold them exactly,
    and [-0] is identified with [0]. *)
Inductive jsnum :=
| NaN
| PosInf
| NegInf
| Int (z : Z).

(** The non-numeric values that flow into [requestParams.sortColumn] and
    [requestParams.sortDirection]: strings from the URL or from attributes,
    [null] from a missing attribute, [undefined] from a function falling off
    its end or from a missing property, and the inherited members of
    [Object.prototype] that a lookup in the object literal
    [replacementSorts] can hit. *)
Inductive jsval :=
| VUndef
| VNull
| VStr (s : string)
| VFun (name : string)
| VObject.

(** [String(v)], as used by string concatenation and [setAttribute]. *)
Definition js_to_string (v : jsval) : string :=
  match v with
  | VUndef => "undefined"
  | VNull => "null"
  | VStr s => s
  | VFun n => "function " ++ n ++ "() { [native code] }"
  | VObject => "[object Object]"
  end.

(** JavaScript truthiness ([if (v)]). *)
Definition truthy (v : jsval) : bool :=
  match v with
  | VUndef | VNull => false
  | VStr s => negb (String.eqb s "")
  | VFun _ | VObject => true
  end.

(** [getAttribute]: the attribute's string, or [null] when it is absent. *)
Definition attr_val (a : option string) : jsval :=
  match a with
  | Some s => VStr s
  | None => VNull
  end.

(** ** [parseInt(s)] with no radix (ECMAScript 19.2.5) *)

Definition is_js_space (c : ascii) : bool :=
  let n := nat_of_ascii c in
  ((9 <=? n) && (n <=? 13))%nat || (n =? 32)%nat.

Fixpoint trim_start (s : string) : string :=
  match s with
  | String c r => if is_js_space c then trim_start r else s
  | EmptyString => s
  end.

(** Value of a digit in radix up to 36. *)
Definition digit_value (c : ascii) : option Z :=
  let n := Z.of_nat (nat_of_ascii c) in
  if (48 <=? n)%Z && (n <=? 57)%Z then Some (n - 48)%Z
  else if (97 <=? n)%Z && (n <=? 122)%Z then Some (n - 87)%Z
  else if (65 <=? n)%Z && (n <=? 90)%Z then Some (n - 55)%Z
  else None.

(** The longest prefix of radix-[radix] digits, accumulated into [acc];
    [None] when the prefix is empty. *)
Fixpoint digits_prefix (radix : Z) (s : string) (acc : Z) (seen : bool)
  : option Z :=
  match s with
  | String c r =>
      match digit_value c with
      | Some d =>
          if (d <? radix)%Z
          then digits_prefix radix r (acc * radix + d)%Z true
          else if seen then Some acc else None
      | None => if seen then Some acc else None
      end
  | EmptyString => if seen then Some acc else None
  end.

Definition parseInt (s : string) : jsnum :=
  let s1 := trim_start s in
  let '(sign, s2) :=
    match s1 with
    | String "-" r => ((-1)%Z, r)
    | String "+" r => (1%Z, r)
    | _ => (1%Z, s1)
    end in
  let '(radix, s3) :=
    match s2 with
    | String "0" (String c r) =>
        if (Ascii.eqb c "x" || Ascii.eqb c "X") then (16%Z, r) else (10%Z, s2)
    | _ => (10%Z, s2)
    end in
  match digits_prefix radix s3 0%Z false with
  | Some v => Int (sign * v)
  | None => NaN
  end.

(** ** [Math.round(total / rowCount)] on integers

    [Math.round] returns the integer closest to its argument, the one closer
    to +infinity on a tie; [x / 0] is an infinity, or [NaN] for [0 / 0].
    For [r <> 0], [floor (t / r + 1/2) = floor ((2t + r) / (2r))], and
    [Z.div] is floor division for either sign of the divisor. *)
Definition math_round_div (t r : Z) : jsnum :=
  if (r =? 0)%Z then
    if (0 <? t)%Z then PosInf else if (t <? 0)%Z then NegInf else NaN
  else Int ((2 * t + r) / (2 * r))%Z.

(** ** The [replacementSorts] object literal

    [{asc: 'desc', desc: 'asc'}]; any other key is looked up along the
    prototype chain: the methods of [Object.prototype], its [__proto__]
    accessor (which returns [Object.prototype] itself), or [undefined]. *)
Definition object_prototype_methods : list string :=
  ["constructor"; "hasOwnProperty"; "isPrototypeOf"; "propertyIsEnumerable";
   "toLocaleString"; "toString"; "valueOf"; "__defineGetter__";
   "__defineSetter__"; "__lookupGetter__"; "__lookupSetter__"].

Definition replacementSorts (k : string) : jsval :=
  if String.eqb k "asc" then VStr "desc"
  else if String.eqb k "desc" then VStr "asc"
  else if existsb (String.eqb k) object_prototype_methods then
    VFun (if String.eqb k "constructor" then "Object" else k)
  else if String.eqb k "__proto__" then VObject
  else VUndef.

(** ** The selector ['th[data-column=' + x + ']']

    An unquoted attribute value must be a CSS identifier; otherwise
    [querySelector] throws a [SyntaxError].  The model accepts identifiers
    built from letters, digits, [_], [-] and non-ASCII characters that do not
    start with a digit, nor with [-] followed by a digit, nor consist of a
    lone [-]; CSS escapes and trailing blanks are not modelled (a column
    string containing [\] or a blank counts as a syntax error). *)
Definition css_ident_start (c : ascii) : bool :=
  let n := nat_of_ascii c in
  ((65 <=? n) && (n <=? 90))%nat || ((97 <=? n) && (n <=? 122))%nat
  || (n =? 95)%nat || (128 <=? n)%nat.

Definition css_ident_char (c : ascii) : bool :=
  let n := nat_of_ascii c in
  css_ident_start c || ((48 <=? n) && (n <=? 57))%nat || (n =? 45)%nat.

Fixpoint css_ident_rest (s : string) : bool :=
  match s with
  | String c r => css_ident_char c && css_ident_rest r
  | EmptyString => true
  end.

Definition css_ident (s : string) : bool :=
  match s with
  | String "-" (String "-" r) => css_ident_rest r
  | String "-" (String c r) => css_ident_start c && css_ident_rest r
  | String c r => css_ident_start c && css_ident_rest r
  | EmptyString => false
  end.

(** ** Data model *)

(** The constants of the constructor. *)
Definition DEFAULT_PAGE : Z := 1.
Definition DEFAULT_ROWS : Z := 15.
Definition DEFAULT_SORT : string := "desc".

(** [that.requestParams]: [search] is [None] while the object has no
    [search] property. *)
Record params := mkParams {
  page : jsnum;
  rowCount : jsnum;
  sortColumn : jsval;
  sortDirection : jsval;
  search : option string
}.

(** A [th] element of the table: its [data-column] and [data-sort]
    attributes, [None] when absent. *)
Record th := mkTh {
  th_column : option string;
  th_sort : option string
}.

(** A row record of the response (field name to value). *)
Definition row := list (string * string).

(** The JSON body of a response. *)
Record body := mkBody {
  b_current : Z;
  b_rowCount : Z;
  b_total : Z;
  b_rows : list row
}.

(** The arguments superagent passes to the [.end] callback: [null] or
    [undefined], an error object (it has no [body] property), or a response
    whose [body] is the parsed JSON. *)
Inductive cbarg :=
| ANull
| AUndef
| AError (message : string)
| AResponse (b : body).

(** Content of the table's [tbody]: the host page's markup, the loading
    placeholder row, or the rows template applied to a context ([None] is
    the template applied to [undefined]). *)
Inductive tbody_content :=
| TMarkup
| TLoading
| TRendered (ctx : option body).

Inductive hist_op := Replace | Push.

(** The datagrid object together with the state it drives. *)
Record grid := mkGrid {
  firstLoad : bool;               (* that.firstLoad *)
  emitterFirstLoad : jsval;       (* the [firstLoad] property of that.emitter *)
  data : option cbarg;            (* that.data, [None] for its initial null *)
  requestParams : params;         (* that.requestParams *)
  headers : list th;              (* the table's th elements, in order *)
  tbody : tbody_content;          (* the table body *)
  searchTerm : option string;     (* that.searchbar.searchTerm *)
  paginationCalls : list (jsnum * jsnum * params);
      (* setPage / setPageCount / setRequestParams, oldest first *)
  requests : list params;         (* GET src with .query(requestParams) *)
  historyLog : list (hist_op * params)  (* history.replace / history.push *)
}.

(** Field updates. *)
Definition set_data (d : option cbarg) (g : grid) : grid :=
  mkGrid (firstLoad g) (emitterFirstLoad g) d (requestParams g) (headers g)
    (tbody g) (searchTerm g) (paginationCalls g) (requests g) (historyLog g).
Definition set_requestParams (p : params) (g : grid) : grid :=
  mkGrid (firstLoad g) (emitterFirstLoad g) (data g) p (headers g)
    (tbody g) (searchTerm g) (paginationCalls g) (requests g) (historyLog g).
Definition set_headers (h : list th) (g : grid) : grid :=
  mkGrid (firstLoad g) (emitterFirstLoad g) (data g) (requestParams g) h
    (tbody g) (searchTerm g) (paginationCalls g) (requests g) (historyLog g).
Definition set_tbody (t : tbody_content) (g : grid) : grid :=
  mkGrid (firstLoad g) (emitterFirstLoad g) (data g) (requestParams g)
    (headers g) t (searchTerm g) (paginationCalls g) (requests g) (historyLog g).
Definition set_searchTerm (s : option string) (g : grid) : grid :=
  mkGrid (firstLoad g) (emitterFirstLoad g) (data g) (requestParams g)
    (headers g) (tbody g) s (paginationCalls g) (requests g) (historyLog g).
Definition set_paginationCalls (l : list (jsnum * jsnum * params)) (g : grid)
  : grid :=
  mkGrid (firstLoad g) (emitterFirstLoad g) (data g) (requestParams g)
    (headers g) (tbody g) (searchTerm g) l (requests g) (historyLog g).
Definition set_requests (l : list params) (g : grid) : grid :=
  mkGrid (firstLoad g) (emitterFirstLoad g) (data g) (requestParams g)
    (headers g) (tbody g) (searchTerm g) (paginationCalls g) l (historyLog g).
Definition set_historyLog (l : list (hist_op * params)) (g : grid) : grid :=
  mkGrid (firstLoad g) (emitterFirstLoad g) (data g) (requestParams g)
    (headers g) (tbody g) (searchTerm g) (paginationCalls g) (requests g) l.

Definition with_page (n : jsnum) (p : params) : params :=
  mkParams n (rowCount p) (sortColumn p) (sortDirection p) (search p).
Definition with_sort (c d : jsval) (p : params) : params :=
  mkParams (page p) (rowCount p) c d (search p).
Definition with_search (s : string) (p : params) : params :=
  mkParams (page p) (rowCount p) (sortColumn p) (sortDirection p) (Some s).

(** ** The state monad with exceptions

    [(None, g)] is a computation that threw, in state [g]. *)
Definition M (A : Type) : Type := grid -> option A * grid.

Definition ret {A} (a : A) : M A := fun g => (Some a, g).

Definition bind {A B} (m : M A) (k : A -> M B) : M B :=
  fun g => match m g with
           | (Some a, g') => k a g'
           | (None, g') => (None, g')
           end.

Notation "x <- m ;; k" := (bind m (fun x => k))
  (at level 61, m at next level, right associativity).
Notation "m ;; k" := (bind m (fun _ => k))
  (at level 61, right associativity).

Definition throw {A} : M A := fun g => (None, g).
Definition get : M grid := fun g => (Some g, g).
Definition modify (f : grid -> grid) : M unit := fun g => (Some tt, f g).

(** ** Methods of [Datagrid.prototype] *)

Definition th_has_column (key : string) (t : th) : bool :=
  match th_column t with
  | Some c => String.eqb c key
  | None => false
  end.

(** [th.setAttribute('data-sort', v)] on the first [th] whose
    [data-column] is [key] ([querySelector] returns the first match). *)
Fixpoint mark_first (key v : string) (ths : list th) : list th :=
  match ths with
  | [] => []
  | t :: r =>
      if th_has_column key t then mkTh (th_column t) (Some v) :: r
      else t :: mark_first key v r
  end.

(** [th.removeAttribute('data-sort')]. *)
Definition clear_sort (t : th) : th := mkTh (th_column t) None.

(** [setSortHeaders]. *)
Definition setSortHeaders : M unit :=
  modify (fun g => set_headers (map clear_sort (headers g)) g) ;;
  g <- get ;;
  let key := js_to_string (sortColumn (requestParams g)) in
  if css_ident key then
    modify (set_headers
              (mark_first key (js_to_string (sortDirection (requestParams g)))
                 (headers g)))
  else throw.

(** [showLoadingOverlay]: the body is replaced by the placeholder row (its
    height, [clientHeight * rowCount], is markup only). *)
Definition showLoadingOverlay : M unit := modify (set_tbody TLoading).

(** [loadData]: [superagent.get(src).query(requestParams)]; the query is
    serialised when [.query] is called, so the request carries the
    parameters of that moment.  The [.end] callback is [end_callback]
    below, run when the request completes. *)
Definition loadData : M unit :=
  modify (fun g => set_requests (requests g ++ [requestParams g]) g).

(** Reading [.body] of a callback argument: a [TypeError] on [null] and
    [undefined], [undefined] on an error object. *)
Definition body_of (d : cbarg) : M (option body) :=
  match d with
  | ANull | AUndef => throw
  | AError _ => ret None
  | AResponse b => ret (Some b)
  end.

(** [parseRows(data)]: the rows template applied to [data]. *)
Definition parseRows (ctx : option body) : M unit :=
  modify (set_tbody (TRendered ctx)).

(** [parsePagination]: [this.data.body.total] and [this.data.body.rowCount]
    give the page count.  The copy [JSON.parse(JSON.stringify(...))] of the
    request parameters is recorded as the parameters themselves; the
    footer markup the widget returns is not modelled. *)
Definition parsePagination : M unit :=
  g <- get ;;
  match data g with
  | Some d =>
      b <- body_of d ;;
      match b with
      | Some b =>
          modify (fun g =>
            set_paginationCalls
              (paginationCalls g ++
                 [(page (requestParams g),
                   math_round_div (b_total b) (b_rowCount b),
                   requestParams g)]) g)
      | None => throw
      end
  | None => throw
  end.

Definition history_replace : M unit :=
  modify (fun g => set_historyLog (historyLog g ++ [(Replace, requestParams g)]) g).
Definition history_push : M unit :=
  modify (fun g => set_historyLog (historyLog g ++ [(Push, requestParams g)]) g).

(** [parseSearchbar]: only [searchbar.searchTerm] is state; the form
    markup is the search widget's. *)
Definition parseSearchbar : M unit :=
  g <- get ;;
  match search (requestParams g) with
  | Some s => if truthy (VStr s) then modify (set_searchTerm (Some s)) else ret tt
  | None => ret tt
  end.

(** [appendToolbars] and [wrapHeaders] only insert markup and attach the
    click listeners that emit sort-request ([SortClick] below). *)
Definition appendToolbars : M unit := ret tt.
Definition wrapHeaders : M unit := ret tt.

(** ** The event handlers *)

(** ['data-ready']: a plain [function] listener, so [this] is the
    [EventEmitter] it is registered on; [this.firstLoad] reads the
    emitter's property. *)
Definition on_data_ready (d : cbarg) : M unit :=
  modify (set_data (Some d)) ;;
  b <- body_of d ;;
  parseRows b ;;
  parsePagination ;;
  g <- get ;;
  if truthy (emitterFirstLoad g) then history_replace else history_push.

(** ['sort-request'], with [el] the clicked [th]. *)
Definition on_sort_request (el : th) : M unit :=
  showLoadingOverlay ;;
  let sortColumn := attr_val (th_column el) in
  let sortDirection :=
    match th_sort el with
    | None => VStr DEFAULT_SORT
    | Some d => replacementSorts d
    end in
  modify (fun g =>
    set_requestParams (with_sort sortColumn sortDirection (requestParams g)) g) ;;
  setSortHeaders ;;
  loadData.

(** ['pagination-request'], with [data_page] the link's [data-page]
    attribute ([parseInt(null)] parses the string "null"). *)
Definition on_pagination_request (data_page : option string) : M unit :=
  showLoadingOverlay ;;
  modify (fun g =>
    set_requestParams
      (with_page (parseInt (js_to_string (attr_val data_page))) (requestParams g)) g) ;;
  loadData.

(** ['search-request'], with [value] the submitted [search.value]. *)
Definition on_search_request (value : string) : M unit :=
  showLoadingOverlay ;;
  modify (fun g => set_requestParams (with_page (Int 1) (requestParams g)) g) ;;
  modify (fun g => set_requestParams (with_search value (requestParams g)) g) ;;
  loadData.

(** The [.end(function (error, response) {...})] callback of [loadData]:
    the value it emits as ['data-ready']. *)
Definition end_callback (error response : cbarg) : cbarg := response.

(** ** Construction: [loadRequestParams] and the constructor *)

(** [url.readQueryString(k)] of the URL utility: the (decoded) value of
    the first parameter named [k], [null] when there is none. *)
Definition readQueryString (url : list (string * string)) (k : string)
  : option string :=
  match find (fun kv => String.eqb (fst kv) k) url with
  | Some (_, v) => Some v
  | None => None
  end.

(** [querySelector('th[data-sort]')]. *)
Definition first_sorted (ths : list th) : option th :=
  find (fun t => match th_sort t with Some _ => true | None => false end) ths.

Definition getPageNumber (url : list (string * string)) : jsnum :=
  match readQueryString url "page" with
  | None => Int DEFAULT_PAGE
  | Some p => parseInt p
  end.

Definition getRowCount (url : list (string * string)) : jsnum :=
  match readQueryString url "rowCount" with
  | None => Int DEFAULT_ROWS
  | Some r => parseInt r
  end.

Definition getSortDirection (url : list (string * string)) (ths : list th)
  : jsval :=
  match readQueryString url "sortDirection" with
  | Some d => VStr d
  | None =>
      match first_sorted ths with
      | Some t => attr_val (th_sort t)
      | None => VUndef
      end
  end.

Definition getSortColumn (url : list (string * string)) (ths : list th)
  : jsval :=
  match readQueryString url "sortColumn" with
  | Some c => VStr c
  | None =>
      match first_sorted ths with
      | Some t => attr_val (th_column t)
      | None => VUndef
      end
  end.

Definition getSearchTerm (url : list (string * string)) : option string :=
  readQueryString url "search".

Definition loadRequestParams (url : list (string * string)) (ths : list th)
  : params :=
  let search := getSearchTerm url in
  mkParams (getPageNumber url) (getRowCount url) (getSortColumn url ths)
    (getSortDirection url ths)
    (match search with
     | Some s => if truthy (VStr s) then Some s else None
     | None => None
     end).

(** The object right after [that.requestParams = this.loadRequestParams()]:
    [firstLoad] is [true]; the emitter is a fresh [EventEmitter], which has
    no [firstLoad] property. *)
Definition initial_grid (url : list (string * string)) (ths : list th) : grid :=
  mkGrid true VUndef None (loadRequestParams url ths) ths TMarkup None [] [] [].

(** "Do all the things." *)
Definition construct : M unit :=
  appendToolbars ;;
  parseSearchbar ;;
  wrapHeaders ;;
  showLoadingOverlay ;;
  setSortHeaders ;;
  loadData.

Definition new_datagrid (url : list (string * string)) (ths : list th)
  : option unit * grid :=
  construct (initial_grid url ths).

(** ** Runs

    The environment delivers clicks on a header (by position), clicks on a
    pagination link, search submissions and completions of requests.  An
    exception escaping a listener ends that listener only; the next event
    is dispatched in the state it left behind. *)
Inductive event :=
| SortClick (i : nat)
| PaginationClick (data_page : option string)
| SearchSubmit (value : string)
| FetchEnd (error response : cbarg).

Definition dispatch (e : event) : M unit :=
  match e with
  | SortClick i =>
      g <- get ;;
      match nth_error (headers g) i with
      | Some el => on_sort_request el
      | None => ret tt
      end
  | PaginationClick p => on_pagination_request p
  | SearchSubmit v => on_search_request v
  | FetchEnd err resp => on_data_ready (end_callback err resp)
  end.

Fixpoint run_events (evs : list event) (g : grid) : grid :=
  match evs with
  | [] => g
  | e :: r => run_events r (snd (dispatch e g))
  end.

Definition run (url : list (string * string)) (ths : list th)
  (evs : list event) : grid :=
  run_events evs (snd (new_datagrid url ths)).

(** ** The query string sent by [.query(requestParams)]

    The networking collaborator (superagent) walks the object's own keys in
    insertion order ([page], [rowCount], [sortColumn], [sortDirection], then
    [search] once the object has it), skips keys whose value is [undefined],
    sends a [null] value as the bare key ([None] below) and any other value
    as [key=String(value)]. *)
Definition number_to_string (n : jsnum) : string :=
  match n with
  | NaN => "NaN"
  | PosInf => "Infinity"
  | NegInf => "-Infinity"
  | Int z => NilZero.string_of_int (Z.to_int z)
  end.

Definition value_pair (k : string) (v : jsval) : list (string * option string) :=
  match v with
  | VUndef => []
  | VNull => [(k, None)]
  | _ => [(k, Some (js_to_string v))]
  end.

Definition query_pairs (p : params) : list (string * option string) :=
  [("page", Some (number_to_string (page p)));
   ("rowCount", Some (number_to_string (rowCount p)))]
  ++ value_pair "sortColumn" (sortColumn p)
  ++ value_pair "sortDirection" (sortDirection p)
  ++ match search p with
     | Some s => [("search", Some s)]
     | None => []
     end.

(** ** Sample markup and responses *)

(** The header row of the README: [id] sorted ascending by default. *)
Definition readme_headers : list th :=
  [mkTh (Some "id") (Some "asc");
   mkTh (Some "user_fullname") None;
   mkTh (Some "report_created_at") None].

Definition sample_body (total rowcount : Z) : body :=
  mkBody 1 rowcount total
    [[("id", "1"); ("user_fullname", "Joseph Thompson")];
     [("id", "2"); ("user_fullname", "Charlotte Simpson")]].

(** ** Invariants used below *)

(** Every history operation so far is a push, and the emitter still has no
    [firstLoad] property. *)
Definition only_pushes (g : grid) : Prop :=
  emitterFirstLoad g = VUndef /\ Forall (fun h => fst h = Push) (historyLog g).

Ltac close_only_pushes :=
  match goal with
  | H : truthy (emitterFirstLoad ?g) = true, H' : only_pushes ?g |- _ =>
      let He := fresh "He" in
      destruct H' as [He _]; rewrite He in H; discriminate
  | H : only_pushes ?g |- only_pushes (?f ?g) =>
      let He := fresh "He" in
      let Hf := fresh "Hf" in
      destruct H as [He Hf]; unfold only_pushes; cbn; split; [exact He|];
      first [ assumption
            | apply Forall_app; split;
              [assumption | constructor; [reflexivity | constructor]] ]
  end.

(** [page] is an integer of at least 1. *)
Definition page_ok (n : jsnum) : bool :=
  match n with
  | Int z => (1 <=? z)%Z
  | _ => false
  end.

Definition asc_or_desc (s : string) : bool :=
  String.eqb s "asc" || String.eqb s "desc".

(** [sortDirection] is [asc], [desc] or [undefined]. *)
Definition direction_ok (v : jsval) : bool :=
  match v with
  | VUndef => true
  | VStr s => asc_or_desc s
  | _ => false
  end.

(** A header's [data-sort] is absent or [String] of such a direction. *)
Definition sort_attr_ok (a : option string) : bool :=
  match a with
  | None => true
  | Some s => asc_or_desc s || String.eqb s "undefined"
  end.

Definition params_ok (g : grid) : Prop :=
  page_ok (page (requestParams g)) = true /\
  direction_ok (sortDirection (requestParams g)) = true /\
  Forall (fun t => sort_attr_ok (th_sort t) = true) (headers g).

(** Inputs that stay within the invariant: the URL's [page] and
    [sortDirection], the markup's default [data-sort], the [data-page] of
    every clicked pagination link. *)
Definition url_ok (url : list (string * string)) : bool :=
  match readQueryString url "page" with
  | Some s => page_ok (parseInt s)
  | None => true
  end &&
  match readQueryString url "sortDirection" with
  | Some s => asc_or_desc s
  | None => true
  end.

Definition markup_ok (ths : list th) : bool :=
  match first_sorted ths with
  | Some t => match th_sort t with Some s => asc_or_desc s | None => true end
  | None => true
  end.

Definition event_ok (e : event) : bool :=
  match e with
  | PaginationClick p => page_ok (parseInt (js_to_string (attr_val p)))
  | _ => true
  end.

(** ** Invariants of the handlers

    [preserves P m]: running [m] from a state satisfying [P] ends, whether
    it returns or throws, in a state satisfying [P]. *)
Section Preservation.
Variable P : grid -> Prop.

Definition preserves {A} (m : M A) : Prop :=
  forall g, P g -> P (snd (m g)).

Lemma preserves_ret {A} (a : A) : preserves (ret a).
Proof. intros g Hg; exact Hg. Qed.

Lemma preserves_throw {A} : preserves (@throw A).
Proof. intros g Hg; exact Hg. Qed.

Lemma preserves_modify (f : grid -> grid) :
  (forall g, P g -> P (f g)) -> preserves (modify f).
Proof. intros Hf g Hg; exact (Hf g Hg). Qed.

Lemma preserves_bind {A B} (m : M A) (k : A -> M B) :
  preserves m -> (forall a, preserves (k a)) -> preserves (bind m k).
Proof.
  intros Hm Hk g Hg. unfold bind.
  pose proof (Hm g Hg) as Hg'.
  destruct (m g) as [[a|] g'] eqn:E; cbn in *; [apply Hk|]; exact Hg'.
Qed.

Lemma preserves_get {B} (k : grid -> M B) :
  (forall g, P g -> preserves (k g)) -> preserves (bind get k).
Proof. intros Hk g Hg. exact (Hk g Hg g Hg). Qed.
End Preservation.

Ltac preserve :=
  unfold dispatch, construct, on_data_ready, on_sort_request,
    on_pagination_request, on_search_request, end_callback, setSortHeaders,
    showLoadingOverlay, loadData, parseRows, parsePagination,
    history_replace, history_push, body_of, parseSearchbar, appendToolbars,
    wrapHeaders;
  repeat match goal with
  | |- preserves _ (bind get _) => apply preserves_get; intros ?g0 ?Hg0
  | |- preserves _ (bind _ _) => apply preserves_bind; [|intros ?]
  | |- preserves _ (ret _) => apply preserves_ret
  | |- preserves _ throw => apply preserves_throw
  | |- preserves _ (modify _) => apply preserves_modify; intros ?g1 ?Hg1
  | |- preserves _ (match ?x with _ => _ end) => destruct x eqn:?
  | |- preserves _ (if ?x then _ else _) => destruct x eqn:?
  end.

(** Unfolds the handlers and the monad down to record updates. *)
Ltac unfold_grid :=
  unfold on_data_ready, on_sort_request, on_pagination_request,
    on_search_request, end_callback, setSortHeaders, showLoadingOverlay,
    loadData, parseRows, parsePagination, history_replace, history_push,
    body_of, bind, modify, get, ret, throw in *; cbn in *.

(** ** Definitions for the properties of the handlers *)

(** The number of headers that carry a [data-sort] attribute. *)
Definition count_sorted (ths : list th) : nat :=
  length (filter (fun t => match th_sort t with Some _ => true | None => false end) ths).

(** The header row keeps the columns [cols] and at most one sort mark. *)
Definition headers_ok (cols : list (option string)) (g : grid) : Prop :=
  map th_column (headers g) = cols /\ (count_sorted (headers g) <= 1)%nat.

(** Completions of requests, as opposed to user actions. *)
Definition is_fetch_end (e : event) : bool :=
  match e with
  | FetchEnd _ _ => true
  | _ => false
  end.

(** [preserve] for an invariant that [setSortHeaders] keeps as a whole
    (lemma [lem]) but not step by step. *)
Ltac preserve_using lem :=
  unfold dispatch, on_data_ready, on_sort_request,
    on_pagination_request, on_search_request, end_callback,
    showLoadingOverlay, loadData, parseRows, parsePagination,
    history_replace, history_push, body_of;
  repeat match goal with
  | |- preserves _ setSortHeaders => apply lem
  | |- preserves _ (bind get _) => apply preserves_get; intros ?g0 ?Hg0
  | |- preserves _ (bind _ _) => apply preserves_bind; [|intros ?]
  | |- preserves _ (ret _) => apply preserves_ret
  | |- preserves _ throw => apply preserves_throw
  | |- preserves _ (modify _) => apply preserves_modify; intros ?g1 ?Hg1
  | |- preserves _ (match ?x with _ => _ end) => destruct x eqn:?
  | |- preserves _ (if ?x then _ else _) => destruct x eqn:?
  end.

(** ** Basic facts about the model *)

Example parseInt_samples :
  parseInt "0" = Int 0 /\ parseInt " 12abc" = Int 12 /\ parseInt "abc" = NaN
  /\ parseInt "0x1F" = Int 31 /\ parseInt "null" = NaN.
Proof. repeat split; reflexivity. Qed.

Example math_round_div_samples :
  math_round_div 95 10 = Int 10 /\ math_round_div 94 10 = Int 9
  /\ math_round_div (-95) 10 = Int (-9) /\ math_round_div 0 0 = NaN.
Proof. repeat split; reflexivity. Qed.

(** A completed request whose body is a response renders it, hands the
    pagination widget the current page and [Math.round(total / rowCount)]
    of the body, and records a history entry. *)
Lemma data_ready_pagination (g : grid) (b : body) :
  fst (on_data_ready (AResponse b) g) = Some tt /\
  paginationCalls (snd (on_data_ready (AResponse b) g)) =
    (paginationCalls g ++
      [(page (requestParams g), math_round_div (b_total b) (b_rowCount b),
        requestParams g)])%list.
Proof.
  unfold on_data_ready; cbn.
  destruct (truthy (emitterFirstLoad g)); cbn; auto.
Qed.

(** * Claims *)

(** C4: whatever the current page and search value, handling a
    search-request sets [page] to 1 and [search] to the submitted term,
    leaves the other parameters alone and issues a GET with the new
    parameters. *)
Theorem search_request_resets_page (g : grid) (value : string) :
  let '(r, g') := on_search_request value g in
  r = Some tt /\
  page (requestParams g') = Int 1 /\
  search (requestParams g') = Some value /\
  rowCount (requestParams g') = rowCount (requestParams g) /\
  sortColumn (requestParams g') = sortColumn (requestParams g) /\
  sortDirection (requestParams g') = sortDirection (requestParams g) /\
  requests g' = (requests g ++ [requestParams g'])%list.
Proof.
  destruct g as [fl efl d [pg rc sc sd se] hs tb st pc rq hl]; cbn.
  repeat split.
Qed.

(** C9: a sort-request sets only [sortColumn] and [sortDirection]:
    [page], [rowCount] and [search] keep their values, and when the handler
    reaches [loadData] the GET it issues carries these parameters. *)
Theorem sort_request_frame (g : grid) (el : th) :
  let '(r, g') := on_sort_request el g in
  requestParams g' =
    with_sort (attr_val (th_column el))
      (match th_sort el with
       | None => VStr DEFAULT_SORT
       | Some d => replacementSorts d
       end) (requestParams g) /\
  page (requestParams g') = page (requestParams g) /\
  rowCount (requestParams g') = rowCount (requestParams g) /\
  search (requestParams g') = search (requestParams g) /\
  (r = Some tt -> requests g' = (requests g ++ [requestParams g'])%list) /\
  (r = None -> requests g' = requests g).
Proof.
  destruct g as [fl efl d [pg rc sc sd se] hs tb st pc rq hl]; unfold_grid.
  destruct (css_ident (js_to_string (attr_val (th_column el)))); cbn;
    repeat split; intros; try discriminate; reflexivity.
Qed.

(** C5: the page count handed to the pagination widget is
    [Math.round(total / rowCount)] of the response: the integer nearest to
    [total / rowCount], the larger one on a tie; so 95 rows by 10 give 10
    pages and 94 rows by 10 give 9. *)
Theorem pagination_page_count_rounds (g : grid) (b : body) :
  let t := b_total b in
  let r := b_rowCount b in
  fst (on_data_ready (AResponse b) g) = Some tt /\
  paginationCalls (snd (on_data_ready (AResponse b) g)) =
    (paginationCalls g ++ [(page (requestParams g), math_round_div t r,
                            requestParams g)])%list /\
  ((0 < r)%Z -> exists n, math_round_div t r = Int n /\
                   (2 * n * r - r <= 2 * t < 2 * n * r + r)%Z) /\
  ((r < 0)%Z -> exists n, math_round_div t r = Int n /\
                   (2 * n * r + r < 2 * t <= 2 * n * r - r)%Z) /\
  math_round_div 95 10 = Int 10 /\ math_round_div 94 10 = Int 9.
Proof.
  cbv zeta.
  destruct (data_ready_pagination g b) as [Hok Hpc].
  split; [exact Hok|]. split; [exact Hpc|].
  set (t := b_total b). set (r := b_rowCount b).
  split; [|split; [|split; reflexivity]]; intros Hr;
    exists ((2 * t + r) / (2 * r))%Z;
    (split; [unfold math_round_div; destruct (Z.eqb_spec r 0); [lia | reflexivity]|]);
    pose proof (Z.div_mod (2 * t + r) (2 * r) ltac:(lia)) as Hdm;
    set (q := ((2 * t + r) / (2 * r))%Z) in *;
    set (m := ((2 * t + r) mod (2 * r))%Z) in *.
  - pose proof (Z.mod_pos_bound (2 * t + r) (2 * r) ltac:(lia)). fold m in H. nia.
  - pose proof (Z.mod_neg_bound (2 * t + r) (2 * r) ltac:(lia)). fold m in H. nia.
Qed.

(** C10: the page count follows the [total] and [rowCount] of the
    response body, also when the server reports a [rowCount] other than
    the one requested. *)
Theorem page_count_uses_server_rowcount (g : grid) (b : body)
  (Hdiff : rowCount (requestParams g) <> Int (b_rowCount b)) :
  fst (on_data_ready (AResponse b) g) = Some tt /\
  paginationCalls (snd (on_data_ready (AResponse b) g)) =
    (paginationCalls g ++
      [(page (requestParams g), math_round_div (b_total b) (b_rowCount b),
        requestParams g)])%list.
Proof. exact (data_ready_pagination g b). Qed.

Lemma page_count_uses_server_rowcount_witness :
  let g := snd (new_datagrid [] readme_headers) in
  rowCount (requestParams g) <> Int (b_rowCount (sample_body 95 10)) /\
  paginationCalls (snd (on_data_ready (AResponse (sample_body 95 10)) g)) =
    [(Int 1, Int 10, requestParams g)] /\
  math_round_div 95 15 = Int 6.
Proof.
  cbv zeta. split; [vm_compute; discriminate|]. split; [|reflexivity].
  destruct (page_count_uses_server_rowcount (snd (new_datagrid [] readme_headers))
              (sample_body 95 10) ltac:(vm_compute; discriminate)) as [_ H].
  rewrite H. reflexivity.
Defined.

(** C7 (as stated, refuted): on a transport failure the error object is
    not what reaches the data-ready handler: the callback emits its second
    argument, which superagent leaves [undefined] then. *)
Lemma fetch_failure_error_not_passed :
  let g := snd (new_datagrid [] readme_headers) in
  let err := AError "Request has been terminated" in
  data (snd (dispatch (FetchEnd err AUndef) g)) = Some AUndef /\
  data (snd (dispatch (FetchEnd err AUndef) g)) <> Some err.
Proof. cbv zeta. split; [reflexivity | vm_compute; discriminate]. Qed.

(** C7 (amended): the [.end] callback never looks at its error argument;
    it emits data-ready with its response argument whatever the error is.
    When that argument is [undefined] the handler throws on [data.body]
    before rendering, so no pagination and no history entry follow. *)
Theorem fetch_end_ignores_error (g : grid) (err resp : cbarg) :
  dispatch (FetchEnd err resp) g = on_data_ready resp g /\
  let '(r, g') := on_data_ready AUndef g in
  r = None /\ data g' = Some AUndef /\ tbody g' = tbody g /\
  paginationCalls g' = paginationCalls g /\ historyLog g' = historyLog g.
Proof.
  split; [reflexivity|].
  destruct g; unfold_grid; repeat split.
Qed.

(** C6: each request parameter is resolved from the URL when the URL has
    it, else ([sortColumn], [sortDirection]) from the first header with a
    [data-sort] attribute, else from the defaults [page = 1],
    [rowCount = 15]; with neither a URL sort nor a default-sort header both
    sort fields stay [undefined] and the query carries no sort key. *)
Theorem request_params_precedence (url : list (string * string)) (ths : list th) :
  let p := loadRequestParams url ths in
  (forall s, readQueryString url "page" = Some s -> page p = parseInt s) /\
  (readQueryString url "page" = None -> page p = Int 1) /\
  (forall s, readQueryString url "rowCount" = Some s -> rowCount p = parseInt s) /\
  (readQueryString url "rowCount" = None -> rowCount p = Int 15) /\
  (forall c, readQueryString url "sortColumn" = Some c -> sortColumn p = VStr c) /\
  (forall d, readQueryString url "sortDirection" = Some d ->
     sortDirection p = VStr d) /\
  (forall t, readQueryString url "sortColumn" = None ->
     first_sorted ths = Some t -> sortColumn p = attr_val (th_column t)) /\
  (forall t d, readQueryString url "sortDirection" = None ->
     first_sorted ths = Some t -> th_sort t = Some d ->
     sortDirection p = VStr d) /\
  (readQueryString url "sortColumn" = None ->
   readQueryString url "sortDirection" = None ->
   first_sorted ths = None ->
   sortColumn p = VUndef /\ sortDirection p = VUndef /\
   (forall k v, In (k, v) (query_pairs p) ->
      k <> "sortColumn" /\ k <> "sortDirection")).
Proof.
  cbv zeta. unfold loadRequestParams, getPageNumber, getRowCount,
    getSortColumn, getSortDirection; cbn.
  repeat split; intros *;
    repeat match goal with
           | H : _ = _ |- _ => rewrite H; clear H
           | |- _ -> _ => intro
           end; try reflexivity.
  all: unfold query_pairs in *; cbn in *.
  all: match goal with
       | H : readQueryString _ "sortColumn" = None,
         H0 : readQueryString _ "sortDirection" = None,
         H1 : first_sorted _ = None,
         H2 : _ \/ _ |- _ => rewrite H, H0, H1 in H2; cbn in H2
       end.
  all: destruct (getSearchTerm url) as [s|]; [destruct (negb _)|]; cbn in *;
    repeat match goal with
           | H : _ \/ _ |- _ => destruct H as [H|H]
           | H : (_, _) = (_, _) |- _ => inversion H; subst; clear H
           end; easy.
Qed.

Lemma dispatch_only_pushes (e : event) : preserves only_pushes (dispatch e).
Proof. destruct e; preserve; close_only_pushes. Qed.

Lemma construct_only_pushes : preserves only_pushes construct.
Proof. preserve; close_only_pushes. Qed.

Lemma run_events_preserves (P : grid -> Prop) (evs : list event) (g : grid) :
  (forall e, In e evs -> preserves P (dispatch e)) -> P g -> P (run_events evs g).
Proof.
  revert g; induction evs as [|e evs IH]; intros g He Hg; cbn; [exact Hg|].
  apply IH; [intros e' Hin; apply He; right; exact Hin|].
  apply He; [left; reflexivity | exact Hg].
Qed.

(** C1 (defect in the code): the data-ready listener tests [this.firstLoad], and
    [this] there is the emitter, which has no such property; so no run
    ever replaces the history entry, the first load included: every
    history operation is a push.  (The flag [that.firstLoad] is never
    cleared either.) *)
Theorem history_never_replaced (url : list (string * string)) (ths : list th)
  (evs : list event) :
  Forall (fun h => fst h = Push) (historyLog (run url ths evs)) /\
  map fst (historyLog (run [] readme_headers
                             [FetchEnd ANull (AResponse (sample_body 2 15))]))
    = [Push].
Proof.
  split; [|reflexivity].
  enough (H : only_pushes (run url ths evs)) by exact (proj2 H).
  unfold run, new_datagrid. apply run_events_preserves; [intros e _; apply dispatch_only_pushes|].
  apply construct_only_pushes. split; [reflexivity | constructor].
Qed.

(** C8 (defect in the code): [loadRequestParams] leaves [search] out when the URL's
    term is empty, but the search-request handler stores [search.value]
    unchecked: submitting an empty search form sends [search=] with the
    request. *)
Theorem empty_search_is_sent (g : grid) :
  let '(r, g') := on_search_request "" g in
  r = Some tt /\
  search (requestParams g') = Some "" /\
  requests g' = (requests g ++ [requestParams g'])%list /\
  In ("search", Some "") (query_pairs (requestParams g')) /\
  search (loadRequestParams [("search", "")] readme_headers) = None.
Proof.
  destruct g as [fl efl d [pg rc sc sd se] hs tb st pc rq hl]; unfold_grid.
  repeat split; try reflexivity.
  unfold query_pairs; rewrite !in_app_iff; right; right; right; right; left; reflexivity.
Qed.

(** C3 (as stated, refuted): for a column that is not the sorted one the
    first toggle gives the default [desc] and the second [asc]: neither
    its absent [data-sort] nor the previous [sortDirection] comes back. *)
Lemma sort_toggle_twice_unsorted_column :
  let g := snd (new_datagrid [("sortDirection", "desc")] readme_headers) in
  let g2 := run_events [SortClick 1; SortClick 1] g in
  th_sort (nth 1 (headers g) (mkTh None None)) = None /\
  th_sort (nth 1 (headers g2) (mkTh None None)) = Some "asc" /\
  sortDirection (requestParams g) = VStr "desc" /\
  sortDirection (requestParams g2) = VStr "asc".
Proof. vm_compute. repeat split. Qed.

Lemma mark_first_at (c v : string) (ths : list th) (i : nat) (el : th) :
  nth_error ths i = Some el -> th_column el = Some c ->
  ~ In (Some c) (firstn i (map th_column ths)) ->
  nth_error (mark_first c v (map clear_sort ths)) i = Some (mkTh (Some c) (Some v)).
Proof.
  revert i; induction ths as [|t ths IH]; intros i Hnth Hcol Hfirst;
    [destruct i; discriminate|].
  destruct i as [|i]; cbn in *.
  - injection Hnth as <-. unfold th_has_column; cbn. rewrite Hcol, String.eqb_refl.
    reflexivity.
  - unfold th_has_column at 1; cbn.
    destruct (th_column t) as [c'|] eqn:Ht.
    + destruct (String.eqb_spec c' c) as [->|_];
        [exfalso; apply Hfirst; left; reflexivity|].
      apply IH; auto.
    + apply IH; auto.
Qed.

Lemma mark_first_columns (c v : string) (ths : list th) :
  map th_column (mark_first c v ths) = map th_column ths.
Proof.
  induction ths as [|t ths IH]; cbn; [reflexivity|].
  destruct (th_has_column c t); cbn; congruence.
Qed.

Lemma map_clear_sort_columns (ths : list th) :
  map th_column (map clear_sort ths) = map th_column ths.
Proof. rewrite map_map. reflexivity. Qed.

(** A click on the [i]-th header, whose [data-column] [c] is a CSS
    identifier carried by no earlier header, sorts by [c] with the toggled
    direction and marks that header, keeping every header's column. *)
Lemma sort_click_on (g : grid) (i : nat) (el : th) (c : string) :
  nth_error (headers g) i = Some el -> th_column el = Some c ->
  css_ident c = true ->
  ~ In (Some c) (firstn i (map th_column (headers g))) ->
  let d' := match th_sort el with
            | None => VStr DEFAULT_SORT
            | Some d => replacementSorts d
            end in
  fst (dispatch (SortClick i) g) = Some tt /\
  requestParams (snd (dispatch (SortClick i) g)) =
    with_sort (VStr c) d' (requestParams g) /\
  nth_error (headers (snd (dispatch (SortClick i) g))) i =
    Some (mkTh (Some c) (Some (js_to_string d'))) /\
  map th_column (headers (snd (dispatch (SortClick i) g))) =
    map th_column (headers g).
Proof.
  intros Hel Hcol Hid Hfirst. cbv zeta.
  destruct g as [fl efl d p hs tb st pc rq hl]; cbn in *.
  unfold dispatch; unfold_grid. rewrite Hel; cbn. rewrite Hcol; cbn.
  rewrite Hid; cbn.
  repeat split.
  - apply (mark_first_at c _ hs i el); assumption.
  - rewrite mark_first_columns, map_clear_sort_columns. reflexivity.
Qed.

(** C3 (amended): on the header that carries the active sort ([data-sort]
    [asc] or [desc]), with a [data-column] [c] that is a CSS identifier
    carried by no earlier header, two successive sort-requests restore its
    [data-sort] and give back [sortDirection] equal to that direction; a
    header without [data-sort] gets [desc] and then [asc]. *)
Theorem sort_toggle_twice (g : grid) (i : nat) (el : th) (c : string)
  (Hel : nth_error (headers g) i = Some el) (Hcol : th_column el = Some c)
  (Hid : css_ident c = true)
  (Hfirst : ~ In (Some c) (firstn i (map th_column (headers g)))) :
  let g1 := snd (dispatch (SortClick i) g) in
  let g2 := snd (dispatch (SortClick i) g1) in
  (forall d, th_sort el = Some d -> d = "asc" \/ d = "desc" ->
     nth_error (headers g2) i = Some el /\
     sortColumn (requestParams g2) = VStr c /\
     sortDirection (requestParams g2) = VStr d) /\
  (th_sort el = None ->
     nth_error (headers g1) i = Some (mkTh (Some c) (Some "desc")) /\
     sortDirection (requestParams g1) = VStr "desc" /\
     nth_error (headers g2) i = Some (mkTh (Some c) (Some "asc")) /\
     sortDirection (requestParams g2) = VStr "asc").
Proof.
  cbv zeta.
  destruct (sort_click_on g i el c Hel Hcol Hid Hfirst)
    as [_ [Hp1 [Hh1 Hc1]]].
  set (g1 := snd (dispatch (SortClick i) g)) in *.
  set (d1 := match th_sort el with
             | None => VStr DEFAULT_SORT
             | Some d => replacementSorts d
             end) in *.
  assert (Hfirst1 : ~ In (Some c) (firstn i (map th_column (headers g1))))
    by (rewrite Hc1; exact Hfirst).
  destruct (sort_click_on g1 i _ c Hh1 eq_refl Hid Hfirst1)
    as [_ [Hp2 [Hh2 _]]].
  rewrite Hp2, Hh2. cbn.
  destruct el as [col srt]; cbn in *; subst col.
  split.
  - intros d -> [-> | ->]; subst d1; cbn; repeat split.
  - intros ->. subst d1. rewrite Hh1, Hp1. repeat split.
Qed.

Lemma sort_toggle_twice_witness :
  let g := snd (new_datagrid [] readme_headers) in
  nth_error (headers g) 0 = Some (mkTh (Some "id") (Some "asc")) /\
  (let g1 := snd (dispatch (SortClick 0) g) in
   let g2 := snd (dispatch (SortClick 0) g1) in
   (forall d, th_sort (mkTh (Some "id") (Some "asc")) = Some d ->
      d = "asc" \/ d = "desc" ->
      nth_error (headers g2) 0 = Some (mkTh (Some "id") (Some "asc")) /\
      sortColumn (requestParams g2) = VStr "id" /\
      sortDirection (requestParams g2) = VStr d) /\
   (th_sort (mkTh (Some "id") (Some "asc")) = None ->
      nth_error (headers g1) 0 = Some (mkTh (Some "id") (Some "desc")) /\
      sortDirection (requestParams g1) = VStr "desc" /\
      nth_error (headers g2) 0 = Some (mkTh (Some "id") (Some "asc")) /\
      sortDirection (requestParams g2) = VStr "asc")).
Proof.
  cbv zeta. split; [reflexivity|].
  exact (sort_toggle_twice (snd (new_datagrid [] readme_headers)) 0
           (mkTh (Some "id") (Some "asc")) "id" eq_refl eq_refl eq_refl
           (fun H => H)).
Defined.

Lemma clear_sort_ok (ths : list th) :
  Forall (fun t => sort_attr_ok (th_sort t) = true) (map clear_sort ths).
Proof.
  induction ths as [|t ths IH]; cbn; constructor; [reflexivity | exact IH].
Qed.

Lemma mark_first_ok (k v : string) (ths : list th) :
  Forall (fun t => sort_attr_ok (th_sort t) = true) ths ->
  sort_attr_ok (Some v) = true ->
  Forall (fun t => sort_attr_ok (th_sort t) = true) (mark_first k v ths).
Proof.
  intros Hths Hv; induction Hths as [|t ths Ht Hths IH]; cbn; [constructor|].
  destruct (th_has_column k t); constructor; auto.
Qed.

Lemma direction_attr_ok (d : jsval) :
  direction_ok d = true -> sort_attr_ok (Some (js_to_string d)) = true.
Proof.
  destruct d as [| |s| |]; cbn; try discriminate; [reflexivity|].
  intros H; rewrite H; reflexivity.
Qed.

Lemma asc_or_desc_cases (s : string) :
  asc_or_desc s = true -> s = "asc" \/ s = "desc".
Proof.
  unfold asc_or_desc; intros H.
  destruct (String.eqb_spec s "asc"); [left; assumption|].
  destruct (String.eqb_spec s "desc"); [right; assumption|].
  discriminate.
Qed.

Lemma toggle_ok (a : option string) :
  sort_attr_ok a = true ->
  direction_ok (match a with
                | Some d => replacementSorts d
                | None => VStr DEFAULT_SORT
                end) = true.
Proof.
  destruct a as [s|]; cbn; [|reflexivity].
  intros H; apply orb_true_iff in H as [H|H].
  - apply asc_or_desc_cases in H as [-> | ->]; reflexivity.
  - apply String.eqb_eq in H; subst s; reflexivity.
Qed.

Lemma dispatch_params_ok (e : event) :
  event_ok e = true -> preserves params_ok (dispatch e).
Proof.
  intros Hev. destruct e; preserve; cbn in Hev.
  all: match goal with
       | H : params_ok ?g |- params_ok (?f ?g) =>
           let Hp := fresh "Hp" in let Hd := fresh "Hd" in
           let Hh := fresh "Hh" in
           destruct H as (Hp & Hd & Hh); unfold params_ok; cbn;
           repeat split; try assumption
       end.
  all: try apply clear_sort_ok.
  all: try reflexivity.
  - apply toggle_ok.
    destruct Hg0 as (_ & _ & Hh0). rewrite Forall_forall in Hh0.
    apply Hh0. eapply nth_error_In. exact Heqo.
  - match goal with
    | H : params_ok ?g |- context [mark_first _ _ (headers ?g)] =>
        destruct H as (_ & Hd1 & Hh1)
    end.
    apply mark_first_ok; [exact Hh1 | apply direction_attr_ok; exact Hd1].
Qed.

Lemma construct_params_ok (g : grid) :
  page_ok (page (requestParams g)) = true ->
  direction_ok (sortDirection (requestParams g)) = true ->
  params_ok (snd (construct g)).
Proof.
  intros Hp Hd.
  destruct g as [fl efl d [pg rc sc sd se] hs tb st pc rq hl]; cbn in Hp, Hd.
  unfold construct, parseSearchbar, appendToolbars, wrapHeaders; unfold_grid.
  destruct se as [s|]; [destruct (negb (s =? ""))|]; cbn.
  all: destruct (css_ident (js_to_string sc)); cbn; repeat split; try assumption.
  all: try apply clear_sort_ok.
  all: apply mark_first_ok; [apply clear_sort_ok | apply direction_attr_ok; exact Hd].
Qed.

Lemma load_request_params_ok (url : list (string * string)) (ths : list th) :
  url_ok url = true -> markup_ok ths = true ->
  page_ok (page (loadRequestParams url ths)) = true /\
  direction_ok (sortDirection (loadRequestParams url ths)) = true.
Proof.
  unfold url_ok, markup_ok, loadRequestParams, getPageNumber, getSortDirection;
    cbn.
  intros Hu Hm; apply andb_true_iff in Hu as [Hu1 Hu2]. split.
  - destruct (readQueryString url "page"); [exact Hu1 | reflexivity].
  - destruct (readQueryString url "sortDirection"); [exact Hu2|].
    destruct (first_sorted ths) as [t|] eqn:Hf; [|reflexivity].
    destruct (th_sort t) eqn:Hs; [exact Hm|].
    (* [th[data-sort]] only finds headers that have the attribute *)
    apply find_some in Hf as [_ Hf]. rewrite Hs in Hf. discriminate.
Qed.

(** C2 (as stated, refuted): nothing checks the values: [?page=0] gives
    page 0, a link with [data-page="abc"] gives [NaN], [?sortDirection=up]
    is kept, and markup without a default sort leaves the direction
    [undefined]. *)
Lemma request_state_unchecked :
  page (requestParams (run [("page", "0")] readme_headers [])) = Int 0 /\
  page (requestParams (run [] readme_headers [PaginationClick (Some "abc")]))
    = NaN /\
  sortDirection (requestParams (run [("sortDirection", "up")] readme_headers []))
    = VStr "up" /\
  sortDirection (requestParams (run [] [mkTh (Some "id") None] [])) = VUndef.
Proof. vm_compute. repeat split. Qed.

(** C2 (amended): the code validates neither [page] nor [sortDirection],
    but when the URL's [page] (if any) and the [data-page] of every clicked
    pagination link parse to integers of at least 1, and the URL's
    [sortDirection] (if any) and the markup's default [data-sort] are [asc]
    or [desc], then in every reachable state [page] is an integer of at
    least 1 and [sortDirection] is [asc], [desc] or [undefined]. *)
Theorem request_state_invariant (url : list (string * string)) (ths : list th)
  (evs : list event)
  (Hurl : url_ok url = true) (Hmark : markup_ok ths = true)
  (Hevs : forallb event_ok evs = true) :
  (exists n, page (requestParams (run url ths evs)) = Int n /\ (1 <= n)%Z) /\
  (sortDirection (requestParams (run url ths evs)) = VStr "asc" \/
   sortDirection (requestParams (run url ths evs)) = VStr "desc" \/
   sortDirection (requestParams (run url ths evs)) = VUndef).
Proof.
  assert (Hinv : params_ok (run url ths evs)).
  { unfold run, new_datagrid. apply run_events_preserves.
    - intros e Hin. apply dispatch_params_ok.
      rewrite forallb_forall in Hevs. exact (Hevs e Hin).
    - destruct (load_request_params_ok url ths Hurl Hmark) as [Hp Hd].
      apply construct_params_ok; assumption. }
  destruct Hinv as (Hp & Hd & _).
  split.
  - destruct (page (requestParams (run url ths evs))) as [| | |z]; try discriminate.
    exists z; split; [reflexivity | apply Z.leb_le; exact Hp].
  - destruct (sortDirection (requestParams (run url ths evs))) as [| |s| |];
      try discriminate; [right; right; reflexivity|].
    apply asc_or_desc_cases in Hd as [-> | ->]; [left | right; left]; reflexivity.
Qed.

Lemma request_state_invariant_witness :
  let url := [("page", "2"); ("sortDirection", "desc")] in
  let evs := [SortClick 1; PaginationClick (Some "3"); SearchSubmit "Jo";
              FetchEnd ANull (AResponse (sample_body 95 10))] in
  url_ok url = true /\ markup_ok readme_headers = true /\
  forallb event_ok evs = true /\
  (exists n, page (requestParams (run url readme_headers evs)) = Int n /\ (1 <= n)%Z) /\
  (sortDirection (requestParams (run url readme_headers evs)) = VStr "asc" \/
   sortDirection (requestParams (run url readme_headers evs)) = VStr "desc" \/
   sortDirection (requestParams (run url readme_headers evs)) = VUndef).
Proof.
  cbv zeta. split; [reflexivity|]. split; [reflexivity|]. split; [reflexivity|].
  apply request_state_invariant; reflexivity.
Defined.

(** * Further properties of the code *)

Lemma count_sorted_cons (t : th) (ths : list th) :
  count_sorted (t :: ths) =
    ((match th_sort t with Some _ => 1 | None => 0 end) + count_sorted ths)%nat.
Proof. unfold count_sorted; cbn; destruct (th_sort t); reflexivity. Qed.

Lemma count_sorted_zero (ths : list th) :
  count_sorted ths = 0%nat <-> Forall (fun t => th_sort t = None) ths.
Proof.
  induction ths as [|t ths IH]; [split; [constructor | reflexivity]|].
  rewrite count_sorted_cons, Forall_cons_iff, <- IH.
  destruct (th_sort t); split; intros H;
    [lia | destruct H; discriminate | split; [reflexivity | lia] | destruct H; lia].
Qed.

Lemma clear_sort_none (ths : list th) :
  Forall (fun t => th_sort t = None) (map clear_sort ths).
Proof. induction ths; constructor; [reflexivity | assumption]. Qed.


Lemma mark_first_count (k v : string) (ths : list th) :
  Forall (fun t => th_sort t = None) ths ->
  count_sorted (mark_first k v ths) = if existsb (th_has_column k) ths then 1%nat else 0%nat.
Proof.
  induction 1 as [|t ths Ht Hths IH]; [reflexivity|]. cbn [mark_first existsb].
  destruct (th_has_column k t); cbn [orb]; rewrite count_sorted_cons; cbn [th_sort].
  - apply count_sorted_zero in Hths. lia.
  - rewrite Ht, IH. reflexivity.
Qed.


(** [setSortHeaders] in closed form. *)
Lemma setSortHeaders_eq (g : grid) :
  let key := js_to_string (sortColumn (requestParams g)) in
  let v := js_to_string (sortDirection (requestParams g)) in
  setSortHeaders g =
    if css_ident key
    then (Some tt, set_headers (mark_first key v (map clear_sort (headers g))) g)
    else (None, set_headers (map clear_sort (headers g)) g).
Proof.
  destruct g; unfold setSortHeaders, bind, modify, get, throw; cbn.
  destruct (css_ident _); reflexivity.
Qed.

Lemma sorted_headers_ok (k v : string) (ths : list th) :
  map th_column (mark_first k v (map clear_sort ths)) = map th_column ths /\
  (count_sorted (mark_first k v (map clear_sort ths)) <= 1)%nat /\
  map th_column (map clear_sort ths) = map th_column ths /\
  count_sorted (map clear_sort ths) = 0%nat.
Proof.
  rewrite mark_first_columns, map_clear_sort_columns, mark_first_count
    by apply clear_sort_none.
  split; [reflexivity|]. split; [destruct (existsb _ _); lia|].
  split; [reflexivity|]. apply count_sorted_zero, clear_sort_none.
Qed.

Lemma setSortHeaders_headers_ok (cols : list (option string)) :
  preserves (headers_ok cols) setSortHeaders.
Proof.
  intros g [Hc _]. rewrite setSortHeaders_eq.
  destruct (sorted_headers_ok (js_to_string (sortColumn (requestParams g)))
              (js_to_string (sortDirection (requestParams g))) (headers g))
    as (H1 & H2 & H3 & H4).
  unfold headers_ok.
  destruct (css_ident _); cbn [snd headers set_headers]; split; try congruence; lia.
Qed.

Lemma dispatch_headers_ok (cols : list (option string)) (e : event) :
  preserves (headers_ok cols) (dispatch e).
Proof.
  destruct e; preserve_using setSortHeaders_headers_ok;
    match goal with H : headers_ok _ ?g |- headers_ok _ _ => exact H end.
Qed.


(** X2: whatever the markup's [data-sort] attributes (several headers may
    carry one), after construction and in every later state at most one
    header carries [data-sort], and every header keeps its [data-column]. *)
Theorem headers_invariant (url : list (string * string)) (ths : list th)
  (evs : list event) :
  map th_column (headers (run url ths evs)) = map th_column ths /\
  (count_sorted (headers (run url ths evs)) <= 1)%nat.
Proof.
  unfold run, new_datagrid.
  apply (run_events_preserves (headers_ok (map th_column ths)));
    [intros e _; apply dispatch_headers_ok|].
  unfold initial_grid. generalize (loadRequestParams url ths) as p.
  intros [pg rc sc sd se].
  destruct (sorted_headers_ok (js_to_string sc) (js_to_string sd) ths)
    as (H1 & H2 & H3 & H4).
  unfold construct, appendToolbars, parseSearchbar, wrapHeaders; unfold_grid.
  destruct se as [s|]; [destruct (negb (s =? ""))|]; cbn;
    destruct (css_ident (js_to_string sc)); cbn;
    split; cbn [headers set_headers]; try assumption; lia.
Qed.



Lemma digits_prefix_step (c : ascii) (k : Z) (r : string) (acc : Z) (seen : bool) :
  digit_value c = Some k -> (k <? 10)%Z = true ->
  digits_prefix 10 (String c r) acc seen = digits_prefix 10 r (acc * 10 + k)%Z true.
Proof. intros Hc Hk; cbn [digits_prefix]; rewrite Hc, Hk; reflexivity. Qed.

Lemma digits_of_uint_acc (d : Decimal.uint) (acc : positive) :
  digits_prefix 10 (NilEmpty.string_of_uint d) (Z.pos acc) true =
  Some (Z.pos (Pos.of_uint_acc d acc)).
Proof.
  revert acc; induction d as [|d IH|d IH|d IH|d IH|d IH|d IH|d IH|d IH|d IH|d IH];
    intros acc; [reflexivity|..].
  all: cbn [NilEmpty.string_of_uint Pos.of_uint_acc].
  all: match goal with
       | |- digits_prefix 10 (String ?c _) _ _ = _ =>
           let k := eval vm_compute in (match digit_value c with Some k => k | None => 0%Z end) in
           rewrite (digits_prefix_step c k) by reflexivity
       end.
  all: rewrite <- IH; f_equal; lia.
Qed.

Lemma digits_of_uint (d : Decimal.uint) :
  digits_prefix 10 (NilEmpty.string_of_uint d) 0 true = Some (Z.of_N (Pos.of_uint d)).
Proof.
  induction d as [|d IH|d IH|d IH|d IH|d IH|d IH|d IH|d IH|d IH|d IH];
    [reflexivity|..].
  all: cbn [NilEmpty.string_of_uint Pos.of_uint Z.of_N].
  all: match goal with
       | |- digits_prefix 10 (String ?c _) _ _ = _ =>
           let k := eval vm_compute in (match digit_value c with Some k => k | None => 0%Z end) in
           rewrite (digits_prefix_step c k) by reflexivity
       end.
  all: first [rewrite <- IH | rewrite <- digits_of_uint_acc]; f_equal; lia.
Qed.

Lemma digits_prefix_seen (radix : Z) (c : ascii) (k : Z) (r : string) (acc : Z) :
  digit_value c = Some k -> (k <? radix)%Z = true ->
  digits_prefix radix (String c r) acc false = digits_prefix radix (String c r) acc true.
Proof. intros Hc Hk; cbn [digits_prefix]; rewrite Hc, Hk; reflexivity. Qed.

Lemma trim_start_keep (c : ascii) (r : string) :
  is_js_space c = false -> trim_start (String c r) = String c r.
Proof. intros Hc; cbn [trim_start]; rewrite Hc; reflexivity. Qed.

Lemma parseInt_uint (u : Decimal.uint) :
  u <> Decimal.Nil ->
  parseInt (NilEmpty.string_of_uint u) = Int (Z.of_N (Pos.of_uint u)) /\
  parseInt (String "-" (NilEmpty.string_of_uint u)) = Int (- Z.of_N (Pos.of_uint u)).
Proof.
  intros Hu. pose proof (digits_of_uint u) as Hd.
  destruct u as [|u|u|u|u|u|u|u|u|u|u];
    [congruence | destruct u as [|u|u|u|u|u|u|u|u|u|u]; [split; reflexivity|..] |..].
  all: split; unfold parseInt; cbn [NilEmpty.string_of_uint] in *;
    rewrite trim_start_keep by reflexivity;
    cbn -[digits_prefix Pos.of_uint Z.mul] in *.
  all: erewrite digits_prefix_seen by reflexivity.
  all: rewrite Hd; f_equal; lia.
Qed.

Lemma parseInt_number_to_string (z : Z) : parseInt (number_to_string (Int z)) = Int z.
Proof.
  destruct z as [|p|p]; [reflexivity| |];
    unfold number_to_string; cbn [Z.to_int NilZero.string_of_int];
    pose proof (DecimalPos.Unsigned.of_to p) as Ho;
    assert (Hu : Pos.to_uint p <> Decimal.Nil)
      by (intros E; rewrite E in Ho; discriminate);
    replace (NilZero.string_of_uint (Pos.to_uint p))
      with (NilEmpty.string_of_uint (Pos.to_uint p))
      by (destruct (Pos.to_uint p); [congruence | reflexivity ..]);
    destruct (parseInt_uint _ Hu) as [H1 H2]; rewrite Ho in H1, H2.
  - exact H1.
  - exact H2.
Qed.

(** X4: a pagination link whose [data-page] is the decimal string of an
    integer [n] sets [page] to [n], and so does a URL [page] parameter
    written the same way ([parseInt] reads back what [String(n)] writes);
    the GET carries the new page and the other parameters unchanged. *)
Theorem pagination_page_round_trip (g : grid) (n : Z)
  (url : list (string * string)) :
  let '(r, g') := on_pagination_request (Some (number_to_string (Int n))) g in
  r = Some tt /\
  requestParams g' = with_page (Int n) (requestParams g) /\
  requests g' = (requests g ++ [with_page (Int n) (requestParams g)])%list /\
  getPageNumber (("page", number_to_string (Int n)) :: url) = Int n.
Proof.
  destruct g as [fl efl d p hs tb st pc rq hl].
  unfold on_pagination_request, showLoadingOverlay, loadData, bind, modify,
    getPageNumber, readQueryString; cbn -[parseInt number_to_string].
  rewrite parseInt_number_to_string.
  split; [reflexivity|]. split; [reflexivity|]. split; reflexivity.
Qed.

(** X5: a pagination link without a [data-page] attribute sets [page] to
    [NaN] ([parseInt(null)]) and still sends the GET, whose query carries
    [page=NaN]. *)
Theorem pagination_missing_page (g : grid) :
  let '(r, g') := on_pagination_request None g in
  r = Some tt /\ page (requestParams g') = NaN /\
  requests g' = (requests g ++ [requestParams g'])%list /\
  In ("page", Some "NaN") (query_pairs (requestParams g')).
Proof.
  destruct g as [fl efl d p hs tb st pc rq hl]; unfold_grid.
  split; [reflexivity|]. split; [reflexivity|]. split; [reflexivity|].
  left; reflexivity.
Qed.

(** X6: every user action (sort-request, pagination-request,
    search-request) puts the loading placeholder in the table body, even
    a sort-request that throws, and touches neither the history, nor the
    pagination widget, nor the searchbar, nor the last response. *)
Theorem user_requests_show_loading (g : grid) (el : th)
  (data_page : option string) (value : string) :
  Forall (fun m : M unit =>
            let g' := snd (m g) in
            tbody g' = TLoading /\ historyLog g' = historyLog g /\
            paginationCalls g' = paginationCalls g /\
            searchTerm g' = searchTerm g /\ data g' = data g)
    [on_sort_request el; on_pagination_request data_page;
     on_search_request value].
Proof.
  destruct g as [fl efl d p hs tb st pc rq hl].
  repeat constructor; unfold_grid;
    try (destruct (css_ident (js_to_string (attr_val (th_column el)))); cbn);
    repeat split.
Qed.

(** X7: when a response arrives, the rows template is applied to its body,
    the pagination widget gets the page of [requestParams] (not the
    [current] page of the body), and the history entry records
    [requestParams] as they are; no request is sent and neither the
    parameters, the headers nor the searchbar change. *)
Theorem data_ready_response (g : grid) (b : body) :
  let '(r, g') := on_data_ready (AResponse b) g in
  r = Some tt /\ data g' = Some (AResponse b) /\
  tbody g' = TRendered (Some b) /\
  paginationCalls g' =
    (paginationCalls g ++
      [(page (requestParams g), math_round_div (b_total b) (b_rowCount b),
        requestParams g)])%list /\
  historyLog g' =
    (historyLog g ++
      [(if truthy (emitterFirstLoad g) then Replace else Push, requestParams g)])%list /\
  requestParams g' = requestParams g /\ requests g' = requests g /\
  headers g' = headers g /\ searchTerm g' = searchTerm g.
Proof.
  destruct g as [fl efl d p hs tb st pc rq hl]; unfold_grid.
  destruct (truthy efl); cbn; repeat split.
Qed.

(** X8: the data-ready handler never sends a request and never changes
    the request parameters, the headers or the searchbar, whatever it
    receives; it adds at most one history entry and at most one
    pagination update. *)
Theorem data_ready_never_requests (g : grid) (d : cbarg) :
  let g' := snd (on_data_ready d g) in
  requests g' = requests g /\ requestParams g' = requestParams g /\
  headers g' = headers g /\ searchTerm g' = searchTerm g /\
  (length (historyLog g') <= S (length (historyLog g)))%nat /\
  (length (paginationCalls g') <= S (length (paginationCalls g)))%nat.
Proof.
  destruct g as [fl efl dt p hs tb st pc rq hl]; cbv zeta.
  destruct d; unfold_grid; try (destruct (truthy efl); cbn);
    repeat split; rewrite ?length_app; cbn; lia.
Qed.

(** X9: an error object (it has no [body]) renders the rows template on
    [undefined] and then throws in [parsePagination]: no pagination update
    and no history entry; [null] throws before anything is rendered. *)
Theorem data_ready_error_object (g : grid) (msg : string) :
  (let '(r, g') := on_data_ready (AError msg) g in
   r = None /\ tbody g' = TRendered None /\
   paginationCalls g' = paginationCalls g /\ historyLog g' = historyLog g) /\
  (let '(r, g') := on_data_ready ANull g in
   r = None /\ tbody g' = tbody g /\
   paginationCalls g' = paginationCalls g /\ historyLog g' = historyLog g).
Proof.
  destruct g as [fl efl d p hs tb st pc rq hl]; unfold_grid; repeat split.
Qed.

(** X10: when the server reports [rowCount] 0 the page count handed to the
    pagination widget is [Infinity] for a positive [total] and [NaN] for a
    [total] of 0. *)
Theorem page_count_zero_rowcount (g : grid) (b : body)
  (Hzero : b_rowCount b = 0%Z) :
  let calls := paginationCalls (snd (on_data_ready (AResponse b) g)) in
  ((0 < b_total b)%Z ->
     calls = (paginationCalls g ++
                [(page (requestParams g), PosInf, requestParams g)])%list) /\
  (b_total b = 0%Z ->
     calls = (paginationCalls g ++
                [(page (requestParams g), NaN, requestParams g)])%list).
Proof.
  cbv zeta. destruct (data_ready_pagination g b) as [_ Hpc]. rewrite Hpc.
  unfold math_round_div. rewrite Hzero; cbn.
  split; intros Ht; [apply Z.ltb_lt in Ht; rewrite Ht | rewrite Ht]; reflexivity.
Qed.

Lemma page_count_zero_rowcount_witness :
  let g := snd (new_datagrid [] readme_headers) in
  b_rowCount (sample_body 2 0) = 0%Z /\
  paginationCalls (snd (on_data_ready (AResponse (sample_body 2 0)) g)) =
    [(Int 1, PosInf, requestParams g)].
Proof.
  cbv zeta. split; [reflexivity|].
  destruct (page_count_zero_rowcount (snd (new_datagrid [] readme_headers))
              (sample_body 2 0) eq_refl) as [H _].
  rewrite H; reflexivity.
Defined.


Lemma load_request_params_search_some (url : list (string * string))
  (ths : list th) (s : string) :
  search (loadRequestParams url ths) = Some s <-> getSearchTerm url = Some s /\ s <> "".
Proof.
  unfold loadRequestParams; cbn.
  destruct (getSearchTerm url) as [t|]; cbn.
  - destruct (String.eqb_spec t ""); cbn; split.
    + discriminate.
    + intros [E Hne]; congruence.
    + intros E; injection E as <-; split; [reflexivity | assumption].
    + intros [E _]; exact E.
  - split; [discriminate | intros [E _]; discriminate].
Qed.

(** X11: [loadRequestParams] gives [requestParams] a [search] entry
    exactly when the URL has a non-empty [search] parameter, and then its
    value. *)
Theorem load_request_params_search (url : list (string * string))
  (ths : list th) :
  (forall s, search (loadRequestParams url ths) = Some s <->
             getSearchTerm url = Some s /\ s <> "") /\
  (search (loadRequestParams url ths) = None <->
   getSearchTerm url = None \/ getSearchTerm url = Some "").
Proof.
  split; [apply load_request_params_search_some|].
  unfold loadRequestParams; cbn.
  destruct (getSearchTerm url) as [t|]; cbn; [|split; [left; reflexivity | reflexivity]].
  destruct (String.eqb_spec t ""); cbn; split.
  - intros _; right; congruence.
  - reflexivity.
  - discriminate.
  - intros [E|E]; congruence.
Qed.





Lemma dispatch_counts (e : event) (g : grid) :
  (length (requests (snd (dispatch e g))) <=
     length (requests g) + if is_fetch_end e then 0 else 1)%nat /\
  (length (historyLog (snd (dispatch e g))) <=
     length (historyLog g) + if is_fetch_end e then 1 else 0)%nat.
Proof.
  destruct g as [fl efl d p hs tb st pc rq hl].
  destruct e as [i|dp|v|err resp]; unfold dispatch; cbn [is_fetch_end].
  - unfold bind, get; cbn [headers].
    destruct (nth_error hs i) as [el|]; [|unfold ret; cbn; lia].
    unfold_grid. destruct (css_ident (js_to_string (attr_val (th_column el))));
      cbn; rewrite ?length_app; cbn; lia.
  - unfold_grid. rewrite length_app; cbn; lia.
  - unfold_grid. rewrite length_app; cbn; lia.
  - destruct resp; unfold_grid; try (destruct (truthy efl); cbn);
      rewrite ?length_app; cbn; lia.
Qed.

Lemma run_events_counts (evs : list event) (g : grid) :
  (length (requests (run_events evs g)) <=
     length (requests g) + length (filter (fun e => negb (is_fetch_end e)) evs))%nat /\
  (length (historyLog (run_events evs g)) <=
     length (historyLog g) + length (filter is_fetch_end evs))%nat.
Proof.
  revert g; induction evs as [|e evs IH]; intros g; cbn; [lia|].
  destruct (dispatch_counts e g) as [H1 H2].
  destruct (IH (snd (dispatch e g))) as [H3 H4].
  destruct (is_fetch_end e); cbn in *; lia.
Qed.

(** X14: over any run, the datagrid sends at most one GET for the
    constructor and one per user action (none for a completion), and adds
    at most one history entry per completed request (none for a user
    action). *)
Theorem requests_and_history_counts (url : list (string * string))
  (ths : list th) (evs : list event) :
  (length (requests (run url ths evs)) <=
     1 + length (filter (fun e => negb (is_fetch_end e)) evs))%nat /\
  (length (historyLog (run url ths evs)) <= length (filter is_fetch_end evs))%nat.
Proof.
  unfold run.
  destruct (run_events_counts evs (snd (new_datagrid url ths))) as [H1 H2].
  assert (Hc : (length (requests (snd (new_datagrid url ths))) <= 1)%nat /\
               historyLog (snd (new_datagrid url ths)) = []).
  { unfold new_datagrid, initial_grid. generalize (loadRequestParams url ths).
    intros [pg rc sc sd se].
    unfold construct, appendToolbars, parseSearchbar, wrapHeaders; unfold_grid.
    destruct se as [s|]; [destruct (negb (s =? ""))|]; cbn;
      destruct (css_ident (js_to_string sc)); cbn; split; auto. }
  destruct Hc as [Hr Hh]. rewrite Hh in H2. cbn [length] in H2. lia.
Qed.
